(** * Cortex metrics exporter: configuration validation and request authentication

    A shallow embedding of [exporters/metric/cortex/config.go] (the [Config]
    struct and its [Validate] method) and of the authenticator exercised by
    [exporters/metric/cortex/auth_test.go], with the properties the
    specification states about them.

    Conventions of the embedding:
    - a Go [string] is a [string]; a [time.Duration] is its [int64] count of
      nanoseconds, a [Z];
    - a [map[string]string] is an optional [gmap string string]: [None] is the
      nil map, and indexing a missing key (or the nil map) gives the empty
      string, as in Go;
    - a pointer that the code only tests against nil and overwrites
      ([*http.Client]) is an [option] of the value pointed to;
    - a method with a pointer receiver that mutates the receiver and returns an
      [error] becomes a function returning the new receiver and an
      [option error] ([None] is the nil error);
    - reading a file is an effect: it runs in a small monad over a read-only
      file system that logs every path read. *)

From Stdlib Require Import ZArith NArith Ascii String List Lia.
From stdpp Require Import base option gmap strings list.

Local Open Scope string_scope.
Local Open Scope Z_scope.

(** ** Go standard-library types used by the package *)

Module time.
(** [type Duration int64], a number of nanoseconds. *)
Definition Duration : Type := Z.
Definition Nanosecond : Duration := 1.
Definition Microsecond : Duration := 1000 * Nanosecond.
Definition Millisecond : Duration := 1000 * Microsecond.
Definition Second : Duration := 1000 * Millisecond.
End time.

Module url.
(** The fields of [url.URL] that a proxy address is made of. *)
Record URL : Type := mkURL {
  Scheme : string;
  Host : string;
  Path : string
}.

(** [*url.Error], the only error [url.Parse] returns. *)
Record Error : Type := mkError {
  Op : string;
  URL_ : string;
  Err : string
}.
End url.

Module net.
Record Dialer : Type := mkDialer {
  Timeout : time.Duration;
  KeepAlive : time.Duration;
  DualStack : bool
}.
End net.

Module http.
(** [type Header map[string][]string]. *)
Abbreviation Header := (gmap string (list string)).

Record Request : Type := mkRequest {
  Method : string;
  URL : string;
  Header_ : Header
}.

(** [func (h Header) Set(key, value string)]: the key's values are replaced
    by the single value. ("Authorization" is already in canonical form.) *)
Definition Header_Set (key value : string) (h : Header) : Header :=
  <[key := [value]]> h.

(** [func (h Header) Get(key string) string]: the first value, or "". *)
Definition Header_Get (key : string) (h : Header) : string :=
  match h !! key with
  | Some (v :: _) => v
  | _ => ""
  end.

Definition Request_SetHeader (key value : string) (r : Request) : Request :=
  {| Method := Method r; URL := URL r; Header_ := Header_Set key value (Header_ r) |}.

(** The fields of [http.Transport] that [Validate] sets. [Proxy] is the
    function from a request to the proxy to use for it. *)
Record Transport : Type := mkTransport {
  Proxy : Request -> option url.URL;
  DialContext : net.Dialer;
  ForceAttemptHTTP2 : bool;
  MaxIdleConns : Z;
  IdleConnTimeout : time.Duration;
  TLSHandshakeTimeout : time.Duration;
  ExpectContinueTimeout : time.Duration
}.

(** [http.ProxyURL(fixedURL)]: the proxy function that returns the same
    URL for every request, and no error. *)
Definition ProxyURL (fixedURL : url.URL) : Request -> option url.URL :=
  fun _ => Some fixedURL.

(** [http.Client]: a nil [Transport] means [http.DefaultTransport]. *)
Record Client : Type := mkClient {
  Transport_ : option Transport;
  Timeout : time.Duration
}.

(** [var DefaultClient = &Client{}]. *)
Definition DefaultClient : Client :=
  {| Transport_ := None; Timeout := 0 |}.
End http.

(** ** Errors *)

(** The error values of the package, and the errors of [url.Parse] that
    [Validate] passes on. [ErrTwoPasswords] and [ErrTwoBearerTokens] are
    declared in [config.go]; the other three are the errors
    [auth_test.go] expects from [addHeaders]. *)
Inductive error : Type :=
  | ErrTwoPasswords
  | ErrTwoBearerTokens
  | ErrNoBasicAuthUsername
  | ErrNoBasicAuthPassword
  | ErrFailedToReadFile
  | url_Error (e : url.Error).

(** ** Maps of strings *)

Abbreviation gomap := (option (gmap string string)).

(** [m[k]] on a [map[string]string]: the zero value "" for a missing key and
    for the nil map. *)
Definition index (m : gomap) (k : string) : string :=
  match m with
  | Some m => default "" (m !! k)
  | None => ""
  end.

(** ** config.go *)

Record Config : Type := mkConfig {
  Endpoint : string;
  RemoteTimeout : time.Duration;
  Name : string;
  BasicAuth : gomap;
  BearerToken : string;
  BearerTokenFile : string;
  TLSConfig : gomap;
  ProxyURL : string;
  PushInterval : time.Duration;
  Headers : gomap;
  Client : option http.Client
}.

(** The zero value [Config{}]. *)
Definition Config_zero : Config :=
  {| Endpoint := ""; RemoteTimeout := 0; Name := ""; BasicAuth := None;
     BearerToken := ""; BearerTokenFile := ""; TLSConfig := None;
     ProxyURL := ""; PushInterval := 0; Headers := None; Client := None |}.

(** Assignments to the fields [Validate] writes. *)
Definition set_Endpoint (v : string) (c : Config) : Config :=
  {| Endpoint := v; RemoteTimeout := RemoteTimeout c; Name := Name c;
     BasicAuth := BasicAuth c; BearerToken := BearerToken c;
     BearerTokenFile := BearerTokenFile c; TLSConfig := TLSConfig c;
     ProxyURL := ProxyURL c; PushInterval := PushInterval c;
     Headers := Headers c; Client := Client c |}.

Definition set_RemoteTimeout (v : time.Duration) (c : Config) : Config :=
  {| Endpoint := Endpoint c; RemoteTimeout := v; Name := Name c;
     BasicAuth := BasicAuth c; BearerToken := BearerToken c;
     BearerTokenFile := BearerTokenFile c; TLSConfig := TLSConfig c;
     ProxyURL := ProxyURL c; PushInterval := PushInterval c;
     Headers := Headers c; Client := Client c |}.

Definition set_PushInterval (v : time.Duration) (c : Config) : Config :=
  {| Endpoint := Endpoint c; RemoteTimeout := RemoteTimeout c; Name := Name c;
     BasicAuth := BasicAuth c; BearerToken := BearerToken c;
     BearerTokenFile := BearerTokenFile c; TLSConfig := TLSConfig c;
     ProxyURL := ProxyURL c; PushInterval := v;
     Headers := Headers c; Client := Client c |}.

Definition set_Client (v : option http.Client) (c : Config) : Config :=
  {| Endpoint := Endpoint c; RemoteTimeout := RemoteTimeout c; Name := Name c;
     BasicAuth := BasicAuth c; BearerToken := BearerToken c;
     BearerTokenFile := BearerTokenFile c; TLSConfig := TLSConfig c;
     ProxyURL := ProxyURL c; PushInterval := PushInterval c;
     Headers := Headers c; Client := v |}.

(** The two conflicts [Validate] checks for. *)
Definition two_bearer_tokens (c : Config) : Prop :=
  BearerToken c <> "" /\ BearerTokenFile c <> "".

Definition two_passwords (c : Config) : Prop :=
  index (BasicAuth c) "password" <> "" /\
  index (BasicAuth c) "password_file" <> "".

#[global] Instance two_bearer_tokens_dec c : Decision (two_bearer_tokens c) :=
  and_dec _ _.

#[global] Instance two_passwords_dec c : Decision (two_passwords c) :=
  and_dec _ _.

(** The transport [Validate] builds for a proxy: [http.DefaultTransport]
    with the proxy replaced. *)
Definition proxyTransport (parsedProxyURL : url.URL) : http.Transport :=
  {| http.Proxy := http.ProxyURL parsedProxyURL;
     http.DialContext :=
       {| net.Timeout := 30 * time.Second;
          net.KeepAlive := 30 * time.Second;
          net.DualStack := true |};
     http.ForceAttemptHTTP2 := true;
     http.MaxIdleConns := 100;
     http.IdleConnTimeout := 90 * time.Second;
     http.TLSHandshakeTimeout := 10 * time.Second;
     http.ExpectContinueTimeout := 1 * time.Second |}.

Section Validate.

(** [url.Parse] belongs to the Go standard library: the development is
    parametric in it. *)
Variable url_Parse : string -> url.URL + url.Error.

(** [func (c *Config) Validate() error]: the configuration after the call
    and the error returned. *)
Definition Validate (c : Config) : Config * option error :=
  (* Check for mutually exclusive properties. *)
  if decide (two_bearer_tokens c) then (c, Some ErrTwoBearerTokens)
  else if decide (two_passwords c) then (c, Some ErrTwoPasswords)
  else
    (* Add default values for missing properties. *)
    let c :=
      if decide (Endpoint c = "") then set_Endpoint "/api/prom/push" c
      else c in
    let c :=
      if decide (RemoteTimeout c = 0)
      then set_RemoteTimeout (30 * time.Second) c else c in
    let c :=
      if decide (PushInterval c = 0)
      then set_PushInterval (10 * time.Second) c else c in
    let proxied : Config + url.Error :=
      match Client c with
      | None =>
          if decide (ProxyURL c <> "") then
            match url_Parse (ProxyURL c) with
            | inr err => inr err
            | inl parsedProxyURL =>
                let transport := proxyTransport parsedProxyURL in
                inl (set_Client
                       (Some {| http.Transport_ := Some transport;
                                http.Timeout := 0 |}) c)
            end
          else inl c
      | Some _ => inl c
      end in
    match proxied with
    | inr err => (c, Some (url_Error err))
    | inl c =>
        match Client c with
        | None => (set_Client (Some http.DefaultClient) c, None)
        | Some _ => (c, None)
        end
    end.

End Validate.

(** ** encoding/base64 *)

Module base64.
(** The alphabet of [base64.StdEncoding] (RFC 4648, section 4). *)
Definition encodeStd : string :=
  "ABCDEFGHIJKLMNOPQRSTUVWXYZabcdefghijklmnopqrstuvwxyz0123456789+/".

Definition StdPadding : ascii := "="%char.

(** [enc.encode[val>>shift&0x3F]]. *)
Definition encode (val shift : N) : ascii :=
  match String.get (N.to_nat (N.land (N.shiftr val shift) 63)) encodeStd with
  | Some c => c
  | None => StdPadding
  end.

(** [StdEncoding.EncodeToString]: three source bytes give four characters;
    a remainder of one or two bytes is padded with "=". *)
Fixpoint EncodeToString (src : string) : string :=
  match src with
  | String s0 (String s1 (String s2 rest)) =>
      let val :=
        N.lor (N.lor (N.shiftl (N_of_ascii s0) 16)
                     (N.shiftl (N_of_ascii s1) 8))
              (N_of_ascii s2) in
      String (encode val 18) (String (encode val 12)
        (String (encode val 6) (String (encode val 0)
           (EncodeToString rest))))
  | String s0 (String s1 EmptyString) =>
      let val :=
        N.lor (N.shiftl (N_of_ascii s0) 16) (N.shiftl (N_of_ascii s1) 8) in
      String (encode val 18) (String (encode val 12)
        (String (encode val 6) (String StdPadding EmptyString)))
  | String s0 EmptyString =>
      let val := N.shiftl (N_of_ascii s0) 16 in
      String (encode val 18) (String (encode val 12)
        (String StdPadding (String StdPadding EmptyString)))
  | EmptyString => EmptyString
  end.
End base64.

(** [func (r *Request) SetBasicAuth(username, password string)] of net/http:
    the standard basic-auth encoding. *)
Definition SetBasicAuth (username password : string) (r : http.Request)
  : http.Request :=
  http.Request_SetHeader "Authorization"
    ("Basic " ++ base64.EncodeToString (username ++ ":" ++ password)) r.

(** ** File reads *)

(** A file system maps the path of each readable file to its contents; a path
    that is not bound cannot be read. *)
Abbreviation FS := (gmap string string).

(** A computation that may read files: from the file system, its result and
    the paths it has read, in order. *)
Definition IO (A : Type) : Type := FS -> A * list string.

#[global] Instance IO_ret : MRet IO := fun A (a : A) (_ : FS) => (a, []).

#[global] Instance IO_bind : MBind IO :=
  fun A B (k : A -> IO B) (m : IO A) (fs : FS) =>
    let '(a, r1) := m fs in
    let '(b, r2) := k a fs in
    (b, (r1 ++ r2)%list).

(** [ioutil.ReadFile]: the contents, or [None] for the error. *)
Definition ioutil_ReadFile (filename : string) : IO (option string) :=
  fun fs => (fs !! filename, [filename]).

Definition result {A : Type} (m : IO A) (fs : FS) : A := fst (m fs).

(** ** The authenticator *)

Record Exporter : Type := mkExporter { config : Config }.

(** Modelled from the spec: the credential reads of [Exporter.addHeaders].
    The file [auth.go] that declares [addHeaders] is missing from the
    sources; its test [TestAuthentication] is present. This definition and
    the three after it follow section 4.2 of the specification.

    A credential is read "either directly or from a file path": when a file
    is named it is read, and an unreadable file is the error
    [ErrFailedToReadFile] ("a missing credential file yields the
    unreadable-file error regardless of auth mode"); otherwise the direct
    value is the credential, and an empty direct value is no credential. *)
Definition readCredential (direct file : string) : IO (option string + error) :=
  if decide (file <> "") then
    contents ← ioutil_ReadFile file;
    mret (match contents with
         | Some s => inl (Some s)
         | None => inr ErrFailedToReadFile
         end)
  else mret (inl (if decide (direct <> "") then Some direct else None)).

(** Modelled from the spec: basic auth, section 4.2: "read password either
    directly or from a file path, fail with a distinguishable error if the
    file is unreadable, if username is empty, or if no password source is
    provided; otherwise set standard basic-auth encoding". The failures are
    checked in the order of that sentence. The request is returned unchanged
    with an error. *)
Definition addBasicAuth (basicAuth : gmap string string) (req : http.Request)
  : IO (http.Request * option error) :=
  let username := index (Some basicAuth) "username" in
  source ← readCredential (index (Some basicAuth) "password")
                           (index (Some basicAuth) "password_file");
  mret (match source with
       | inr err => (req, Some err)
       | inl source =>
           if decide (username = "") then (req, Some ErrNoBasicAuthUsername)
           else
             match source with
             | None => (req, Some ErrNoBasicAuthPassword)
             | Some password => (SetBasicAuth username password req, None)
             end
       end).

(** Modelled from the spec: bearer token, section 4.2: "read token directly
    or from a file, fail similarly on unreadable files; set [Bearer <token>]
    header"; with no token and no token file nothing is set. *)
Definition addBearerTokenAuth (c : Config) (req : http.Request)
  : IO (http.Request * option error) :=
  source ← readCredential (BearerToken c) (BearerTokenFile c);
  mret (match source with
       | inr err => (req, Some err)
       | inl None => (req, None)
       | inl (Some token) =>
           (http.Request_SetHeader "Authorization" ("Bearer " ++ token) req,
            None)
       end).

(** Modelled from the spec: [func (e *Exporter) addHeaders(req *http.Request)
    error], section 4.2: "given an outgoing request, set at most one
    [Authorization] header", by basic auth when the configuration has a
    [BasicAuth] map, by bearer token otherwise; "if neither is configured, no
    header is added (pass-through)". The specification lists basic auth
    first and says nothing of a configuration with both: basic auth is given
    precedence here. The result is the request after the call and the error
    returned. *)
Definition addHeaders (e : Exporter) (req : http.Request)
  : IO (http.Request * option error) :=
  match BasicAuth (config e) with
  | Some basicAuth => addBasicAuth basicAuth req
  | None => addBearerTokenAuth (config e) req
  end.

(** ** Data of the examples *)

(** A parser for the examples: it knows the one proxy address they use and
    rejects every other string. *)
Definition example_Parse (rawurl : string) : url.URL + url.Error :=
  if decide (rawurl = "http://proxy.example.com:3128")
  then inl {| url.Scheme := "http"; url.Host := "proxy.example.com:3128";
              url.Path := "" |}
  else inr {| url.Op := "parse"; url.URL_ := rawurl;
              url.Err := "not a proxy address of the examples" |}.

(** [http.NewRequest(http.MethodPost, server.URL, nil)]: no header yet. *)
Definition example_request : http.Request :=
  {| http.Method := "POST"; http.URL := "http://127.0.0.1:8080";
     http.Header_ := ∅ |}.

(** The exporter of [TestAuthentication]. *)
Definition test_exporter (basicAuth : gomap) (bearerToken bearerTokenFile : string)
  : Exporter :=
  {| config :=
       {| Endpoint := ""; RemoteTimeout := 0; Name := "";
          BasicAuth := basicAuth; BearerToken := bearerToken;
          BearerTokenFile := bearerTokenFile; TLSConfig := None;
          ProxyURL := ""; PushInterval := 0; Headers := None;
          Client := None |} |}.

(** The files [TestAuthentication] creates. *)
Definition test_files : FS :=
  {[ "passwordFile" := "TestPassword"; "bearerTokenFile" := "testToken" ]}.

(** Configurations of the examples. *)
Definition example_proxy : string := "http://proxy.example.com:3128".

Definition with_credentials (basicAuth : gomap)
    (bearerToken bearerTokenFile proxyURL : string) : Config :=
  {| Endpoint := ""; RemoteTimeout := 0; Name := "";
     BasicAuth := basicAuth; BearerToken := bearerToken;
     BearerTokenFile := bearerTokenFile; TLSConfig := None;
     ProxyURL := proxyURL; PushInterval := 0; Headers := None;
     Client := None |}.

Definition both_passwords : gomap :=
  Some {[ "username" := "TestUser"; "password" := "TestPassword";
          "password_file" := "passwordFile" ]}.

(** "Fields already set": a configuration with its own endpoint and times. *)
Definition example_preset : Config :=
  {| Endpoint := "/api/v1/push"; RemoteTimeout := 123 * time.Second;
     Name := "cortex"; BasicAuth := None; BearerToken := "";
     BearerTokenFile := ""; TLSConfig := None; ProxyURL := "";
     PushInterval := 5 * time.Second; Headers := None;
     Client := Some http.DefaultClient |}.

(** The three defaults of [Validate] (lines 46 to 56 of [config.go]) on their
    own, for the statements about the path on which both conflict checks have
    passed. *)
Definition defaults (c : Config) : Config :=
  let c :=
    if decide (Endpoint c = "") then set_Endpoint "/api/prom/push" c else c in
  let c :=
    if decide (RemoteTimeout c = 0)
    then set_RemoteTimeout (30 * time.Second) c else c in
  if decide (PushInterval c = 0)
  then set_PushInterval (10 * time.Second) c else c.

(** [becomes before after v]: the field has changed to [v]. *)
Definition becomes {A : Type} (before after v : A) : Prop :=
  after = v /\ before <> v.

(** The basic-auth maps of [TestAuthentication] and of the examples. *)
Definition basic_password : gomap :=
  Some {[ "username" := "TestUser"; "password" := "TestPassword" ]}.
Definition basic_no_username : gomap :=
  Some {[ "password" := "TestPassword" ]}.
Definition basic_no_password : gomap :=
  Some {[ "username" := "TestUser" ]}.
Definition basic_password_file : gomap :=
  Some {[ "username" := "TestUser"; "password_file" := "passwordFile" ]}.
Definition basic_bad_password_file : gomap :=
  Some {[ "username" := "TestUser";
          "password_file" := "missingPasswordFile" ]}.
Definition basic_empty : gomap := Some ∅.
Definition basic_only_bad_password_file : gomap :=
  Some {[ "password_file" := "missingPasswordFile" ]}.

(** What [TestAuthentication] checks of one call: the error, and the
    [Authorization] header the server sees. *)
Definition outcome (e : Exporter) (fs : FS) : option error * string :=
  let '(req, err) := result (addHeaders e example_request) fs in
  (err, http.Header_Get "Authorization" (http.Header_ req)).

(** ** What is stated of the authenticator, for any authenticator *)

(** The type of [addHeaders]. The five statements below are the properties
    the specification states of the authenticator, each as it is worded and
    at one call, for an arbitrary function of this type: they serve to show
    where two of them cannot hold together, whatever the authenticator. *)
Definition Authenticator : Type :=
  Exporter -> http.Request -> IO (http.Request * option error).

(** Basic auth with a non-empty username and a password supplied directly
    (no password file named) or by a readable password file: no error, and
    the [Authorization] header is "Basic " and the base64 encoding. *)
Definition sets_basic_auth (auth : Authenticator) (fs : FS) (e : Exporter)
    (req : http.Request) : Prop :=
  forall (basicAuth : gmap string string) (username password : string),
    BasicAuth (config e) = Some basicAuth ->
    index (Some basicAuth) "username" = username -> username <> "" ->
    (index (Some basicAuth) "password_file" = "" /\
     index (Some basicAuth) "password" = password /\ password <> "") \/
    (index (Some basicAuth) "password_file" <> "" /\
     fs !! index (Some basicAuth) "password_file" = Some password) ->
    snd (result (auth e req) fs) = None /\
    http.Header_Get "Authorization" (http.Header_ (fst (result (auth e req) fs)))
    = "Basic " ++ base64.EncodeToString (username ++ ":" ++ password).

(** A bearer token supplied directly (no token file named) or by a readable
    token file, in every configuration: no error, and the [Authorization]
    header is "Bearer " and the token. *)
Definition sets_bearer_token (auth : Authenticator) (fs : FS) (e : Exporter)
    (req : http.Request) : Prop :=
  forall token : string,
    (BearerTokenFile (config e) = "" /\
     BearerToken (config e) = token /\ token <> "") \/
    (BearerTokenFile (config e) <> "" /\
     fs !! BearerTokenFile (config e) = Some token) ->
    snd (result (auth e req) fs) = None /\
    http.Header_Get "Authorization" (http.Header_ (fst (result (auth e req) fs)))
    = "Bearer " ++ token.

(** A credential file that is named and cannot be read, be it the password
    file of the basic-auth map or the bearer-token file, in every
    configuration: [ErrFailedToReadFile], and the request as it was. *)
Definition fails_on_unreadable_file (auth : Authenticator) (fs : FS)
    (e : Exporter) (req : http.Request) : Prop :=
  (exists basicAuth : gmap string string,
     BasicAuth (config e) = Some basicAuth /\
     index (Some basicAuth) "password_file" <> "" /\
     fs !! index (Some basicAuth) "password_file" = None) \/
  (BearerTokenFile (config e) <> "" /\
   fs !! BearerTokenFile (config e) = None) ->
  result (auth e req) fs = (req, Some ErrFailedToReadFile).

(** A basic-auth map with an empty username: [ErrNoBasicAuthUsername]; with
    neither a password nor a password file: [ErrNoBasicAuthPassword]; the
    request as it was. *)
Definition fails_on_missing_credentials (auth : Authenticator) (fs : FS)
    (e : Exporter) (req : http.Request) : Prop :=
  forall basicAuth : gmap string string,
    BasicAuth (config e) = Some basicAuth ->
    (index (Some basicAuth) "username" = "" ->
     result (auth e req) fs = (req, Some ErrNoBasicAuthUsername)) /\
    (index (Some basicAuth) "password" = "" ->
     index (Some basicAuth) "password_file" = "" ->
     result (auth e req) fs = (req, Some ErrNoBasicAuthPassword)).


(** A second parser for the examples: the same answer for the proxy address
    of the examples, and every other string taken as a path (as [url.Parse]
    does for "123.4.5.6", the proxy address of [TestBuildClient]). *)
Definition example_Parse_paths (rawurl : string) : url.URL + url.Error :=
  if decide (rawurl = "http://proxy.example.com:3128")
  then inl {| url.Scheme := "http"; url.Host := "proxy.example.com:3128";
              url.Path := "" |}
  else inl {| url.Scheme := ""; url.Host := ""; url.Path := rawurl |}.

(** A configuration with a basic-auth map that has no username and no
    password, and a proxy address [example_Parse] rejects. *)
Definition example_bad_proxy : Config :=
  with_credentials basic_empty "" "bearerTokenFile" "123.4.5.6".

(** * Properties *)

(** ** encoding/base64 *)

(** The test vectors of RFC 4648, section 10. *)
Example EncodeToString_rfc4648 :
  map base64.EncodeToString ["f"; "fo"; "foo"; "foob"; "fooba"; "foobar"]
  = ["Zg=="; "Zm8="; "Zm9v"; "Zm9vYg=="; "Zm9vYmE="; "Zm9vYmFy"].
Proof. vm_compute. reflexivity. Qed.

(** Every character [encode] produces is a character of the alphabet: the
    padding branch of its definition is never taken. *)
Lemma encode_alphabet (val shift : N) :
  exists n : nat,
    (n < 64)%nat /\
    String.get n base64.encodeStd = Some (base64.encode val shift).
Proof.
  unfold base64.encode.
  set (n := N.to_nat (N.land (N.shiftr val shift) 63)).
  assert (Hn : (n < 64)%nat).
  { subst n. change 63%N with (N.ones 6). rewrite N.land_ones.
    pose proof (N.mod_upper_bound (N.shiftr val shift) (2 ^ 6)) as H.
    change (2 ^ 6)%N with 64%N in *. lia. }
  exists n. split; [exact Hn|]. clearbody n.
  do 64 (destruct n as [|n]; [reflexivity|]). lia.
Qed.

(** The encoding has four characters for every three bytes of the source,
    the last group padded. *)
Lemma EncodeToString_length (src : string) :
  String.length (base64.EncodeToString src)
  = (4 * ((String.length src + 2) / 3))%nat.
Proof.
  assert (H3 : forall n : nat, ((S (S (S n)) + 2) / 3 = S ((n + 2) / 3))%nat).
  { intros n. replace (S (S (S n)) + 2)%nat with ((n + 2) + 1 * 3)%nat by lia.
    rewrite Nat.div_add by lia. lia. }
  enough (forall s,
    String.length (base64.EncodeToString s)
    = (4 * ((String.length s + 2) / 3))%nat /\
    (forall a, String.length (base64.EncodeToString (String a s))
               = (4 * ((S (String.length s) + 2) / 3))%nat) /\
    (forall a b, String.length (base64.EncodeToString (String a (String b s)))
                 = (4 * ((S (S (String.length s)) + 2) / 3))%nat))
    as H by apply H.
  induction s as [|c s (IH0 & IH1 & IH2)].
  - repeat split.
  - split; [apply IH1|]. split; [intros a; apply IH2|].
    intros a b. cbn [base64.EncodeToString String.length].
    rewrite IH0, H3. lia.
Qed.

(** ** [Validate] *)

Section ValidateProperties.

Variable url_Parse : string -> url.URL + url.Error.

Lemma Validate_two_bearer_tokens (c : Config) :
  two_bearer_tokens c -> Validate url_Parse c = (c, Some ErrTwoBearerTokens).
Proof. intros H. unfold Validate. by rewrite decide_True. Qed.

Lemma Validate_two_passwords (c : Config) :
  ~ two_bearer_tokens c -> two_passwords c ->
  Validate url_Parse c = (c, Some ErrTwoPasswords).
Proof.
  intros Hb Hp. unfold Validate.
  rewrite decide_False by done. by rewrite decide_True.
Qed.

Lemma Endpoint_defaults (c : Config) :
  Endpoint (defaults c) =
  if decide (Endpoint c = "") then "/api/prom/push" else Endpoint c.
Proof. unfold defaults. repeat case_decide; reflexivity. Qed.

Lemma RemoteTimeout_defaults (c : Config) :
  RemoteTimeout (defaults c) =
  if decide (RemoteTimeout c = 0) then 30 * time.Second else RemoteTimeout c.
Proof.
  unfold defaults.
  destruct (decide (Endpoint c = "")); simpl;
    repeat case_decide; simpl in *; congruence.
Qed.

Lemma PushInterval_defaults (c : Config) :
  PushInterval (defaults c) =
  if decide (PushInterval c = 0) then 10 * time.Second else PushInterval c.
Proof.
  unfold defaults.
  destruct (decide (Endpoint c = "")), (decide (RemoteTimeout c = 0)); simpl;
    repeat case_decide; simpl in *; congruence.
Qed.

Lemma credentials_defaults (c : Config) :
  Name (defaults c) = Name c /\ BasicAuth (defaults c) = BasicAuth c /\
  BearerToken (defaults c) = BearerToken c /\
  BearerTokenFile (defaults c) = BearerTokenFile c /\
  TLSConfig (defaults c) = TLSConfig c /\ ProxyURL (defaults c) = ProxyURL c /\
  Headers (defaults c) = Headers c /\ Client (defaults c) = Client c.
Proof. unfold defaults. repeat case_decide; simpl; repeat split. Qed.

Lemma Validate_no_conflict (c : Config) :
  ~ two_bearer_tokens c -> ~ two_passwords c ->
  Validate url_Parse c =
  match Client c with
  | Some _ => (defaults c, None)
  | None =>
      if decide (ProxyURL c <> "") then
        match url_Parse (ProxyURL c) with
        | inr err => (defaults c, Some (url_Error err))
        | inl parsedProxyURL =>
            (set_Client
               (Some {| http.Transport_ := Some (proxyTransport parsedProxyURL);
                        http.Timeout := 0 |}) (defaults c), None)
        end
      else (set_Client (Some http.DefaultClient) (defaults c), None)
  end.
Proof.
  intros Hb Hp. unfold Validate.
  rewrite !decide_False by done. fold (defaults c).
  destruct (credentials_defaults c) as (_ & _ & _ & _ & _ & Hproxy & _ & Hclient).
  rewrite Hclient, Hproxy.
  destruct (Client c) as [cl|] eqn:Hc.
  - by rewrite Hclient.
  - case_decide; [|by rewrite Hclient].
    by destruct (url_Parse (ProxyURL c)).
Qed.

(** The fields of the result on the success path. *)
Lemma Validate_success (c c' : Config) :
  Validate url_Parse c = (c', None) ->
  ~ two_bearer_tokens c /\ ~ two_passwords c /\
  Endpoint c' = Endpoint (defaults c) /\
  RemoteTimeout c' = RemoteTimeout (defaults c) /\
  PushInterval c' = PushInterval (defaults c) /\
  Name c' = Name c /\ BasicAuth c' = BasicAuth c /\
  BearerToken c' = BearerToken c /\ BearerTokenFile c' = BearerTokenFile c /\
  TLSConfig c' = TLSConfig c /\ ProxyURL c' = ProxyURL c /\
  Headers c' = Headers c.
Proof.
  intros H.
  destruct (decide (two_bearer_tokens c)) as [Hb|Hb].
  { rewrite Validate_two_bearer_tokens in H by done. discriminate. }
  destruct (decide (two_passwords c)) as [Hp|Hp].
  { rewrite Validate_two_passwords in H by done. discriminate. }
  rewrite Validate_no_conflict in H by done.
  destruct (credentials_defaults c) as (? & ? & ? & ? & ? & ? & ? & ?).
  assert (c' = defaults c \/ exists cl, c' = set_Client cl (defaults c))
    as [->| [cl ->]].
  { destruct (Client c); [left; congruence|].
    case_decide; [destruct (url_Parse (ProxyURL c))|];
      try discriminate; right; eexists; symmetry;
      injection H as H; exact H. }
  - repeat split; done.
  - repeat split; done.
Qed.

End ValidateProperties.

(** Claim C1, as stated, does not hold: a configuration with both password
    forms AND both bearer-token forms set yields [ErrTwoBearerTokens], not
    [ErrTwoPasswords], because the bearer-token check of [Validate] comes
    first. *)
Lemma Validate_both_conflicts_counterexample :
  let c := with_credentials both_passwords "testToken" "bearerTokenFile" "" in
  two_passwords c /\
  snd (Validate example_Parse c) = Some ErrTwoBearerTokens /\
  snd (Validate example_Parse c) <> Some ErrTwoPasswords.
Proof. vm_compute. repeat split; discriminate. Qed.

(** Claim C1, amended: [Validate] returns [ErrTwoBearerTokens] whenever both
    bearer-token forms are set; it returns [ErrTwoPasswords] when both
    password forms are set and the bearer-token forms are not both set; and
    when neither conflict is present it returns neither of the two errors. *)
Theorem Validate_duplicate_sources
    (url_Parse : string -> url.URL + url.Error) (c : Config) :
  (two_bearer_tokens c ->
   snd (Validate url_Parse c) = Some ErrTwoBearerTokens) /\
  (two_passwords c -> ~ two_bearer_tokens c ->
   snd (Validate url_Parse c) = Some ErrTwoPasswords) /\
  (~ two_passwords c -> ~ two_bearer_tokens c ->
   snd (Validate url_Parse c) <> Some ErrTwoPasswords /\
   snd (Validate url_Parse c) <> Some ErrTwoBearerTokens).
Proof.
  split; [|split].
  - intros Hb. by rewrite Validate_two_bearer_tokens.
  - intros Hp Hb. by rewrite Validate_two_passwords.
  - intros Hp Hb. rewrite Validate_no_conflict by done.
    destruct (Client c); [split; discriminate|].
    case_decide; [destruct (url_Parse (ProxyURL c))|]; split; discriminate.
Qed.

Lemma Validate_duplicate_sources_witness :
  snd (Validate example_Parse
         (with_credentials None "testToken" "bearerTokenFile" ""))
  = Some ErrTwoBearerTokens /\
  snd (Validate example_Parse (with_credentials both_passwords "" "" ""))
  = Some ErrTwoPasswords /\
  snd (Validate example_Parse Config_zero) <> Some ErrTwoPasswords /\
  snd (Validate example_Parse Config_zero) <> Some ErrTwoBearerTokens.
Proof.
  split; [|split].
  - apply (proj1 (Validate_duplicate_sources example_Parse _)).
    split; discriminate.
  - apply (proj1 (proj2 (Validate_duplicate_sources example_Parse _))).
    + vm_compute. split; discriminate.
    + intros [H _]. by apply H.
  - apply (proj2 (proj2 (Validate_duplicate_sources example_Parse _))).
    + intros [H _]. by apply H.
    + intros [H _]. by apply H.
Defined.

(** Claim C3: on every configuration on which [Validate] succeeds, each of
    the three defaults applies exactly when its field was unset. [Endpoint]
    becomes "/api/prom/push" if and only if it was empty, [RemoteTimeout]
    becomes 30 seconds if and only if it was zero, [PushInterval] becomes 10
    seconds if and only if it was zero; a field that was set keeps its value. *)
Theorem Validate_defaults
    (url_Parse : string -> url.URL + url.Error) (c c' : Config) :
  Validate url_Parse c = (c', None) ->
  (becomes (Endpoint c) (Endpoint c') "/api/prom/push" <-> Endpoint c = "") /\
  (becomes (RemoteTimeout c) (RemoteTimeout c') (30 * time.Second)
   <-> RemoteTimeout c = 0) /\
  (becomes (PushInterval c) (PushInterval c') (10 * time.Second)
   <-> PushInterval c = 0) /\
  (Endpoint c <> "" -> Endpoint c' = Endpoint c) /\
  (RemoteTimeout c <> 0 -> RemoteTimeout c' = RemoteTimeout c) /\
  (PushInterval c <> 0 -> PushInterval c' = PushInterval c).
Proof.
  intros H. apply Validate_success in H as (_ & _ & He & Hr & Hp & _).
  rewrite Endpoint_defaults in He. rewrite RemoteTimeout_defaults in Hr.
  rewrite PushInterval_defaults in Hp. unfold becomes.
  rewrite He, Hr, Hp. clear He Hr Hp.
  repeat split; repeat case_decide; try congruence; try tauto;
    intros; try (vm_compute; congruence).
  all: match goal with H : _ = 0 |- _ => rewrite H; discriminate end.
Qed.

Lemma Validate_defaults_witness :
  (becomes "" (Endpoint (fst (Validate example_Parse Config_zero)))
     "/api/prom/push" <-> Endpoint Config_zero = "") /\
  Endpoint (fst (Validate example_Parse example_preset)) = "/api/v1/push" /\
  RemoteTimeout (fst (Validate example_Parse example_preset))
  = 123 * time.Second /\
  PushInterval (fst (Validate example_Parse example_preset))
  = 5 * time.Second.
Proof.
  split.
  - apply (Validate_defaults example_Parse Config_zero). reflexivity.
  - pose proof (Validate_defaults example_Parse example_preset _ eq_refl)
      as (_ & _ & _ & He & Hr & Hp).
    split; [|split].
    + apply He. discriminate.
    + apply Hr. discriminate.
    + apply Hp. discriminate.
Defined.

(** Claim C7, as stated, does not hold: on a configuration with two bearer
    tokens [Validate] returns before it reaches the client, so with no preset
    client the [Client] field stays nil, whether a proxy URL that parses is
    given or none is. *)
Lemma Validate_client_counterexample :
  (let c := with_credentials None "testToken" "bearerTokenFile" example_proxy in
   Client c = None /\ ProxyURL c <> "" /\
   (exists u, example_Parse (ProxyURL c) = inl u) /\
   Client (fst (Validate example_Parse c)) = None) /\
  (let c := with_credentials None "testToken" "bearerTokenFile" "" in
   Client c = None /\ ProxyURL c = "" /\
   Client (fst (Validate example_Parse c)) = None).
Proof.
  split.
  - repeat split; [discriminate | eexists; reflexivity].
  - repeat split.
Qed.

(** Claim C7, amended: for every configuration that passes both conflict
    checks (not two passwords, not two bearer tokens) and has no preset
    client: with a non-empty proxy URL that parses, [Validate] succeeds and
    sets a client whose transport sends every request through the parsed
    proxy, with a 30 s dial timeout and keep-alive, 100 idle connections at
    most, a 90 s idle timeout and a 10 s TLS handshake timeout; with no proxy
    URL, [Validate] succeeds and sets [http.DefaultClient]. *)
Theorem Validate_client
    (url_Parse : string -> url.URL + url.Error) (c : Config) :
  ~ two_bearer_tokens c -> ~ two_passwords c -> Client c = None ->
  (forall parsedProxyURL : url.URL,
     ProxyURL c <> "" -> url_Parse (ProxyURL c) = inl parsedProxyURL ->
     exists transport : http.Transport,
       snd (Validate url_Parse c) = None /\
       Client (fst (Validate url_Parse c))
       = Some {| http.Transport_ := Some transport; http.Timeout := 0 |} /\
       (forall req, http.Proxy transport req = Some parsedProxyURL) /\
       net.Timeout (http.DialContext transport) = 30 * time.Second /\
       net.KeepAlive (http.DialContext transport) = 30 * time.Second /\
       http.MaxIdleConns transport = 100 /\
       http.IdleConnTimeout transport = 90 * time.Second /\
       http.TLSHandshakeTimeout transport = 10 * time.Second) /\
  (ProxyURL c = "" ->
   snd (Validate url_Parse c) = None /\
   Client (fst (Validate url_Parse c)) = Some http.DefaultClient).
Proof.
  intros Hb Hp Hc. rewrite Validate_no_conflict by done. rewrite Hc.
  split.
  - intros u Hproxy Hparse. rewrite decide_True by done. rewrite Hparse.
    exists (proxyTransport u). simpl. repeat split.
  - intros Hproxy. rewrite decide_False by (intros H; by apply H).
    simpl. split; reflexivity.
Qed.

Lemma Validate_client_witness :
  (exists transport : http.Transport,
     Client (fst (Validate example_Parse
                    (with_credentials None "" "" example_proxy)))
     = Some {| http.Transport_ := Some transport; http.Timeout := 0 |} /\
     forall req, exists u, http.Proxy transport req = Some u /\
                           url.Host u = "proxy.example.com:3128") /\
  Client (fst (Validate example_Parse Config_zero)) = Some http.DefaultClient.
Proof.
  assert (Hb : forall p, ~ two_bearer_tokens (with_credentials None "" "" p))
    by (intros p [H _]; by apply H).
  assert (Hp : forall p, ~ two_passwords (with_credentials None "" "" p))
    by (intros p [H _]; by apply H).
  split.
  - destruct (proj1 (Validate_client example_Parse _ (Hb example_proxy)
                       (Hp example_proxy) eq_refl)
                _ ltac:(discriminate) eq_refl)
      as (transport & _ & Hclient & Hproxy & _).
    exists transport. split; [exact Hclient|].
    intros req. eexists. split; [apply Hproxy | reflexivity].
  - apply (proj2 (Validate_client example_Parse _ (Hb "") (Hp "") eq_refl)).
    reflexivity.
Defined.

(** Claim C10: whenever [Validate] returns [ErrTwoPasswords] or
    [ErrTwoBearerTokens], the configuration is left exactly as it was: no
    default is filled in and no client is set. *)
Theorem Validate_conflict_unchanged
    (url_Parse : string -> url.URL + url.Error) (c : Config) :
  snd (Validate url_Parse c) = Some ErrTwoPasswords \/
  snd (Validate url_Parse c) = Some ErrTwoBearerTokens ->
  fst (Validate url_Parse c) = c.
Proof.
  intros H.
  destruct (decide (two_bearer_tokens c)) as [Hb|Hb].
  { by rewrite Validate_two_bearer_tokens. }
  destruct (decide (two_passwords c)) as [Hp|Hp].
  { by rewrite Validate_two_passwords. }
  exfalso. rewrite Validate_no_conflict in H by done.
  destruct (Client c);
    [|case_decide; [destruct (url_Parse (ProxyURL c))|]];
    simpl in H; destruct H; discriminate.
Qed.

Lemma Validate_conflict_unchanged_witness :
  fst (Validate example_Parse
         (with_credentials both_passwords "" "" example_proxy))
  = with_credentials both_passwords "" "" example_proxy /\
  fst (Validate example_Parse
         (with_credentials None "testToken" "bearerTokenFile" example_proxy))
  = with_credentials None "testToken" "bearerTokenFile" example_proxy.
Proof.
  split.
  - apply (Validate_conflict_unchanged example_Parse). left.
    vm_compute. reflexivity.
  - apply (Validate_conflict_unchanged example_Parse). right. reflexivity.
Defined.

(** ** The authenticator *)

(** Runs the binds and returns of a computation on its file system. *)
Ltac run_io := unfold mbind, IO_bind, mret, IO_ret, ioutil_ReadFile; simpl.

Lemma readCredential_file (direct file : string) (fs : FS) :
  file <> "" ->
  readCredential direct file fs =
  (match fs !! file with
   | Some s => inl (Some s)
   | None => inr ErrFailedToReadFile
   end, [file]).
Proof.
  intros H. unfold readCredential. rewrite decide_True by done.
  run_io. by destruct (fs !! file).
Qed.

Lemma readCredential_direct (direct : string) (fs : FS) :
  readCredential direct "" fs =
  (inl (if decide (direct <> "") then Some direct else None), []).
Proof. reflexivity. Qed.

Lemma addBasicAuth_file (basicAuth : gmap string string)
    (req : http.Request) (fs : FS) :
  index (Some basicAuth) "password_file" <> "" ->
  addBasicAuth basicAuth req fs =
  (match fs !! index (Some basicAuth) "password_file" with
   | None => (req, Some ErrFailedToReadFile)
   | Some password =>
       if decide (index (Some basicAuth) "username" = "")
       then (req, Some ErrNoBasicAuthUsername)
       else (SetBasicAuth (index (Some basicAuth) "username") password req,
             None)
   end, [index (Some basicAuth) "password_file"]).
Proof.
  intros H. unfold addBasicAuth, mbind, IO_bind.
  rewrite readCredential_file by done. run_io.
  destruct (fs !! _); [case_decide|]; reflexivity.
Qed.

Lemma addBasicAuth_direct (basicAuth : gmap string string)
    (req : http.Request) (fs : FS) :
  index (Some basicAuth) "password_file" = "" ->
  addBasicAuth basicAuth req fs =
  (if decide (index (Some basicAuth) "username" = "")
   then (req, Some ErrNoBasicAuthUsername)
   else if decide (index (Some basicAuth) "password" <> "")
        then (SetBasicAuth (index (Some basicAuth) "username")
                (index (Some basicAuth) "password") req, None)
        else (req, Some ErrNoBasicAuthPassword), []).
Proof.
  intros H. unfold addBasicAuth, mbind, IO_bind.
  rewrite H, readCredential_direct. run_io.
  repeat case_decide; reflexivity.
Qed.

Lemma addBearerTokenAuth_file (c : Config) (req : http.Request) (fs : FS) :
  BearerTokenFile c <> "" ->
  addBearerTokenAuth c req fs =
  (match fs !! BearerTokenFile c with
   | None => (req, Some ErrFailedToReadFile)
   | Some token =>
       (http.Request_SetHeader "Authorization" ("Bearer " ++ token) req, None)
   end, [BearerTokenFile c]).
Proof.
  intros H. unfold addBearerTokenAuth, mbind, IO_bind.
  rewrite readCredential_file by done. run_io.
  by destruct (fs !! _).
Qed.

Lemma addBearerTokenAuth_direct (c : Config) (req : http.Request) (fs : FS) :
  BearerTokenFile c = "" ->
  addBearerTokenAuth c req fs =
  (if decide (BearerToken c <> "")
   then (http.Request_SetHeader "Authorization"
           ("Bearer " ++ BearerToken c) req, None)
   else (req, None), []).
Proof.
  intros H. unfold addBearerTokenAuth, mbind, IO_bind.
  rewrite H, readCredential_direct. run_io.
  case_decide; reflexivity.
Qed.

(** The table of [TestAuthentication], case by case, on the files the test
    creates. *)
Example TestAuthentication :
  map (fun e => outcome e test_files)
    [ test_exporter basic_password "" "";
      test_exporter basic_no_username "" "";
      test_exporter basic_no_password "" "";
      test_exporter basic_password_file "" "";
      test_exporter basic_bad_password_file "" "";
      test_exporter None "testToken" "";
      test_exporter None "" "missingBearerTokenFile";
      test_exporter None "" "bearerTokenFile" ]
  = [ (None, "Basic " ++ base64.EncodeToString "TestUser:TestPassword");
      (Some ErrNoBasicAuthUsername, "");
      (Some ErrNoBasicAuthPassword, "");
      (None, "Basic " ++ base64.EncodeToString "TestUser:TestPassword");
      (Some ErrFailedToReadFile, "");
      (None, "Bearer testToken");
      (Some ErrFailedToReadFile, "");
      (None, "Bearer testToken") ].
Proof. vm_compute. reflexivity. Qed.

Lemma Authorization_SetHeader (value : string) (req : http.Request) :
  http.Header_ (http.Request_SetHeader "Authorization" value req)
    !! "Authorization" = Some [value] /\
  http.Header_Get "Authorization"
    (http.Header_ (http.Request_SetHeader "Authorization" value req)) = value.
Proof.
  unfold http.Header_Get, http.Request_SetHeader, http.Header_Set. simpl.
  by rewrite lookup_insert_eq.
Qed.

(** Claim C2: for every request and every configuration with basic auth
    whose username is not empty and whose password is supplied either
    directly (a [password] entry, no password file named) or by a password
    file that can be read, [addHeaders] returns no error and sets the
    [Authorization] header of the request to "Basic " followed by the
    standard base64 encoding of [username:password]. *)
Theorem addHeaders_basic_auth (fs : FS) (e : Exporter) (req : http.Request)
    (basicAuth : gmap string string) (username password : string) :
  BasicAuth (config e) = Some basicAuth ->
  index (Some basicAuth) "username" = username -> username <> "" ->
  (index (Some basicAuth) "password_file" = "" /\
   index (Some basicAuth) "password" = password /\ password <> "") \/
  (index (Some basicAuth) "password_file" <> "" /\
   fs !! index (Some basicAuth) "password_file" = Some password) ->
  snd (result (addHeaders e req) fs) = None /\
  fst (result (addHeaders e req) fs)
  = http.Request_SetHeader "Authorization"
      ("Basic " ++ base64.EncodeToString (username ++ ":" ++ password)) req /\
  http.Header_Get "Authorization"
    (http.Header_ (fst (result (addHeaders e req) fs)))
  = "Basic " ++ base64.EncodeToString (username ++ ":" ++ password).
Proof.
  intros Hb Hu Hne Hpw. unfold result, addHeaders. rewrite Hb.
  assert (addBasicAuth basicAuth req fs
          = (SetBasicAuth username password req, None,
             snd (addBasicAuth basicAuth req fs))) as ->.
  { destruct Hpw as [(Hf & Hp & Hpne) | (Hf & Hread)].
    - rewrite addBasicAuth_direct by done. rewrite Hu, Hp.
      rewrite decide_False by done. by rewrite decide_True.
    - rewrite addBasicAuth_file by done. rewrite Hread, Hu.
      by rewrite decide_False. }
  simpl. repeat split. apply Authorization_SetHeader.
Qed.

Lemma addHeaders_basic_auth_witness :
  (let r := result (addHeaders (test_exporter basic_password "" "")
                      example_request) test_files in
   snd r = None /\
   http.Header_Get "Authorization" (http.Header_ (fst r))
   = "Basic VGVzdFVzZXI6VGVzdFBhc3N3b3Jk") /\
  (let r := result (addHeaders (test_exporter basic_password_file "" "")
                      example_request) test_files in
   snd r = None /\
   http.Header_Get "Authorization" (http.Header_ (fst r))
   = "Basic VGVzdFVzZXI6VGVzdFBhc3N3b3Jk").
Proof.
  split.
  - destruct (addHeaders_basic_auth test_files
                (test_exporter basic_password "" "") example_request
                _ "TestUser" "TestPassword" eq_refl eq_refl)
      as (Herr & _ & Hget).
    + discriminate.
    + left. repeat split. discriminate.
    + split; [exact Herr | exact Hget].
  - destruct (addHeaders_basic_auth test_files
                (test_exporter basic_password_file "" "") example_request
                _ "TestUser" "TestPassword" eq_refl eq_refl)
      as (Herr & _ & Hget).
    + discriminate.
    + right. split; [discriminate | reflexivity].
    + split; [exact Herr | exact Hget].
Defined.

(** *** Where the statements cannot hold together *)

Lemma Basic_not_Bearer (credentials token : string) :
  "Basic " ++ credentials <> "Bearer " ++ token.
Proof. simpl. discriminate. Qed.

(** With a basic-auth map in the configuration, the statement of the bearer
    token contradicts the other statements, whatever the authenticator: the
    map has a defect, for which they ask for an error, or it has none, and
    then the statement of basic auth asks for the "Basic" header. *)
Lemma bearer_token_with_basic_auth (auth : Authenticator) (fs : FS)
    (e : Exporter) (req : http.Request) (basicAuth : gmap string string)
    (token : string) :
  BasicAuth (config e) = Some basicAuth ->
  (BearerTokenFile (config e) = "" /\
   BearerToken (config e) = token /\ token <> "") \/
  (BearerTokenFile (config e) <> "" /\
   fs !! BearerTokenFile (config e) = Some token) ->
  sets_basic_auth auth fs e req ->
  fails_on_unreadable_file auth fs e req ->
  fails_on_missing_credentials auth fs e req ->
  ~ sets_bearer_token auth fs e req.
Proof.
  intros Hm Htoken Hbasic Hfile Hmissing Hbearer.
  destruct (Hbearer token Htoken) as [Herr Hget].
  destruct (Hmissing _ Hm) as [Hu Hp].
  destruct (decide (index (Some basicAuth) "username" = "")) as [Hname|Hname].
  { rewrite (Hu Hname) in Herr. discriminate Herr. }
  destruct (decide (index (Some basicAuth) "password_file" = "")) as [Hf|Hf].
  - destruct (decide (index (Some basicAuth) "password" = "")) as [Hpw|Hpw].
    + rewrite (Hp Hpw Hf) in Herr. discriminate Herr.
    + destruct (Hbasic _ _ _ Hm eq_refl Hname (or_introl (conj Hf (conj eq_refl Hpw))))
        as [_ Hget'].
      rewrite Hget' in Hget. by apply Basic_not_Bearer in Hget.
  - destruct (fs !! index (Some basicAuth) "password_file")
      as [password|] eqn:Hread.
    + destruct (Hbasic _ _ _ Hm eq_refl Hname (or_intror (conj Hf Hread)))
        as [_ Hget'].
      rewrite Hget' in Hget. by apply Basic_not_Bearer in Hget.
    + rewrite Hfile in Herr; [discriminate Herr|].
      left. by exists basicAuth.
Qed.

(** With a basic-auth map in the configuration and a password file that is
    not itself unreadable, the statement of the unreadable file, applied to
    the bearer-token file, contradicts the statements of basic auth,
    whatever the authenticator. *)
Lemma unreadable_token_file_with_basic_auth (auth : Authenticator) (fs : FS)
    (e : Exporter) (req : http.Request) (basicAuth : gmap string string) :
  BasicAuth (config e) = Some basicAuth ->
  BearerTokenFile (config e) <> "" ->
  fs !! BearerTokenFile (config e) = None ->
  index (Some basicAuth) "password_file" = "" \/
  is_Some (fs !! index (Some basicAuth) "password_file") ->
  sets_basic_auth auth fs e req ->
  fails_on_missing_credentials auth fs e req ->
  ~ fails_on_unreadable_file auth fs e req.
Proof.
  intros Hm Hne Hnone Hpf Hbasic Hmissing Hfile.
  assert (Hres : result (auth e req) fs = (req, Some ErrFailedToReadFile))
    by (apply Hfile; by right).
  destruct (Hmissing _ Hm) as [Hu Hp].
  destruct (decide (index (Some basicAuth) "username" = "")) as [Hname|Hname].
  { rewrite (Hu Hname) in Hres. discriminate Hres. }
  destruct Hpf as [Hf | [password Hread]].
  - destruct (decide (index (Some basicAuth) "password" = "")) as [Hpw|Hpw].
    + rewrite (Hp Hpw Hf) in Hres. discriminate Hres.
    + destruct (Hbasic _ _ _ Hm eq_refl Hname (or_introl (conj Hf (conj eq_refl Hpw))))
        as [Herr _].
      rewrite Hres in Herr. discriminate Herr.
  - destruct (decide (index (Some basicAuth) "password_file" = "")) as [Hf|Hf].
    { rewrite Hf in Hread.
      destruct (decide (index (Some basicAuth) "password" = "")) as [Hpw|Hpw].
      - rewrite (Hp Hpw Hf) in Hres. discriminate Hres.
      - destruct (Hbasic _ _ _ Hm eq_refl Hname
                    (or_introl (conj Hf (conj eq_refl Hpw)))) as [Herr _].
        rewrite Hres in Herr. discriminate Herr. }
    destruct (Hbasic _ _ _ Hm eq_refl Hname (or_intror (conj Hf Hread)))
      as [Herr _].
    rewrite Hres in Herr. discriminate Herr.
Qed.







(** Every call leaves the request as it was or sets its [Authorization]
    header once; with an error the request is as it was. *)
Lemma addHeaders_request (fs : FS) (e : Exporter) (req : http.Request) :
  (fst (result (addHeaders e req) fs) = req) \/
  (snd (result (addHeaders e req) fs) = None /\
   exists value : string,
     fst (result (addHeaders e req) fs)
     = http.Request_SetHeader "Authorization" value req).
Proof.
  unfold result, addHeaders.
  destruct (BasicAuth (config e)) as [basicAuth|].
  - destruct (decide (index (Some basicAuth) "password_file" = "")) as [Hf|Hf].
    + rewrite addBasicAuth_direct by done.
      repeat case_decide; simpl; eauto.
    + rewrite addBasicAuth_file by done.
      destruct (fs !! _); [case_decide|]; simpl; eauto.
  - destruct (decide (BearerTokenFile (config e) = "")) as [Hf|Hf].
    + rewrite addBearerTokenAuth_direct by done.
      case_decide; simpl; eauto.
    + rewrite addBearerTokenAuth_file by done.
      destruct (fs !! _); simpl; eauto.
Qed.

(** Claim C6: for every request, [addHeaders] sets at most one
    [Authorization] header: the request comes back as it was, or with the
    [Authorization] key set to exactly one value and nothing else changed. In
    particular, when neither basic auth nor a bearer token is configured, the
    request is passed through without an error: no header is added, and a
    request without an [Authorization] entry is left without one. *)
Theorem addHeaders_at_most_one (fs : FS) (e : Exporter) (req : http.Request) :
  (fst (result (addHeaders e req) fs) = req \/
   exists value : string,
     fst (result (addHeaders e req) fs)
     = http.Request_SetHeader "Authorization" value req /\
     http.Header_ (fst (result (addHeaders e req) fs)) !! "Authorization"
     = Some [value]) /\
  (BasicAuth (config e) = None -> BearerToken (config e) = "" ->
   BearerTokenFile (config e) = "" ->
   result (addHeaders e req) fs = (req, None) /\
   (http.Header_ req !! "Authorization" = None ->
    http.Header_ (fst (result (addHeaders e req) fs)) !! "Authorization" = None)).
Proof.
  split.
  - destruct (addHeaders_request fs e req) as [H | (_ & value & H)].
    + by left.
    + right. exists value. split; [exact H|].
      rewrite H. apply Authorization_SetHeader.
  - intros Hb Ht Hf.
    assert (result (addHeaders e req) fs = (req, None)) as ->.
    { unfold result, addHeaders. rewrite Hb.
      rewrite addBearerTokenAuth_direct by done. rewrite Ht.
      by rewrite decide_False by (intros H; by apply H). }
    by split.
Qed.

Lemma addHeaders_at_most_one_witness :
  result (addHeaders (test_exporter None "" "") example_request) test_files
  = (example_request, None) /\
  http.Header_ (fst (result (addHeaders (test_exporter None "" "")
                           example_request) test_files))
    !! "Authorization" = None.
Proof.
  destruct (proj2 (addHeaders_at_most_one test_files
                     (test_exporter None "" "") example_request)
              eq_refl eq_refl eq_refl) as [Hpass Hnone].
  split; [exact Hpass | apply Hnone; reflexivity].
Defined.

(** Claim C9, as stated, does not hold for every basic-auth configuration:
    no authenticator at all does what it says. With a [BasicAuth] map that
    has no username, no password and no password file, both halves of the
    claim apply to the same call and ask for two different errors. And with
    no username and a password file that cannot be read, the claim asks for
    [ErrNoBasicAuthUsername] where the statement of the unreadable file asks
    for [ErrFailedToReadFile]. *)
Lemma addHeaders_missing_credentials_counterexample :
  (let e := test_exporter basic_empty "" "" in
   index basic_empty "username" = "" /\
   index basic_empty "password" = "" /\
   index basic_empty "password_file" = "" /\
   ~ exists auth : Authenticator,
       fails_on_missing_credentials auth test_files e example_request) /\
  (let e := test_exporter basic_only_bad_password_file "" "" in
   index basic_only_bad_password_file "username" = "" /\
   test_files !! index basic_only_bad_password_file "password_file" = None /\
   ~ exists auth : Authenticator,
       fails_on_missing_credentials auth test_files e example_request /\
       fails_on_unreadable_file auth test_files e example_request).
Proof.
  split.
  - repeat split.
    intros (auth & Hmissing).
    destruct (Hmissing _ eq_refl) as [Hu Hp].
    rewrite Hu in Hp by reflexivity.
    specialize (Hp eq_refl eq_refl). discriminate Hp.
  - repeat split.
    intros (auth & Hmissing & Hfile).
    destruct (Hmissing _ eq_refl) as [Hu _].
    assert (H : result (auth (test_exporter basic_only_bad_password_file "" "")
                          example_request) test_files
                = (example_request, Some ErrFailedToReadFile)).
    { apply Hfile. left. eexists. split; [reflexivity|].
      split; [discriminate | reflexivity]. }
    rewrite Hu in H by reflexivity. discriminate H.
Qed.

(** Claim C9, amended: for every request and every basic-auth
    configuration, [addHeaders] fails with [ErrNoBasicAuthUsername] when the
    empty username is the only defect (a password is given with no password
    file named, or the password file named can be read), and with
    [ErrNoBasicAuthPassword] when the missing password is the only defect
    (the username is not empty, and neither a password nor a password file
    is provided); in both cases the request is left as it was (no
    [Authorization] header is set). *)
Theorem addHeaders_missing_credentials (fs : FS) (e : Exporter)
    (req : http.Request) (basicAuth : gmap string string) :
  BasicAuth (config e) = Some basicAuth ->
  (index (Some basicAuth) "username" = "" ->
   (index (Some basicAuth) "password_file" = "" /\
    index (Some basicAuth) "password" <> "") \/
   (index (Some basicAuth) "password_file" <> "" /\
    is_Some (fs !! index (Some basicAuth) "password_file")) ->
   result (addHeaders e req) fs = (req, Some ErrNoBasicAuthUsername)) /\
  (index (Some basicAuth) "username" <> "" ->
   index (Some basicAuth) "password" = "" ->
   index (Some basicAuth) "password_file" = "" ->
   result (addHeaders e req) fs = (req, Some ErrNoBasicAuthPassword)).
Proof.
  intros Hb. unfold result, addHeaders. rewrite Hb. split.
  - intros Hu [[Hf Hp] | [Hf [password Hread]]].
    + rewrite addBasicAuth_direct by done. by rewrite decide_True.
    + rewrite addBasicAuth_file by done. rewrite Hread.
      by rewrite decide_True.
  - intros Hu Hp Hf. rewrite addBasicAuth_direct by done.
    rewrite decide_False by done.
    by rewrite decide_False by (intros H; by apply H).
Qed.

Lemma addHeaders_missing_credentials_witness :
  result (addHeaders (test_exporter basic_no_username "" "") example_request)
    test_files = (example_request, Some ErrNoBasicAuthUsername) /\
  result (addHeaders (test_exporter basic_no_password "" "") example_request)
    test_files = (example_request, Some ErrNoBasicAuthPassword).
Proof.
  split.
  - apply (proj1 (addHeaders_missing_credentials test_files
                    (test_exporter basic_no_username "" "") example_request
                    _ eq_refl)).
    + reflexivity.
    + left. split; [reflexivity | discriminate].
  - apply (proj2 (addHeaders_missing_credentials test_files
                    (test_exporter basic_no_password "" "") example_request
                    _ eq_refl)).
    + discriminate.
    + reflexivity.
    + reflexivity.
Defined.

(** ** File reads of the authenticator *)




(** ** More of [Validate] *)

Lemma defaults_set (c : Config) :
  Endpoint (defaults c) <> "" /\ RemoteTimeout (defaults c) <> 0 /\
  PushInterval (defaults c) <> 0.
Proof.
  rewrite Endpoint_defaults, RemoteTimeout_defaults, PushInterval_defaults.
  repeat split; case_decide; done.
Qed.

Lemma defaults_fixed (c : Config) :
  Endpoint c <> "" -> RemoteTimeout c <> 0 -> PushInterval c <> 0 ->
  defaults c = c.
Proof.
  intros He Hr Hp. unfold defaults.
  rewrite (decide_False (P := Endpoint c = "")) by done.
  rewrite (decide_False (P := RemoteTimeout c = 0)) by done.
  by rewrite (decide_False (P := PushInterval c = 0)).
Qed.

Lemma defaults_set_Client (cl : option http.Client) (c : Config) :
  defaults (set_Client cl c) = set_Client cl (defaults c).
Proof.
  unfold defaults. simpl.
  destruct (decide (Endpoint c = "")); simpl;
    destruct (decide (RemoteTimeout c = 0)); simpl;
    destruct (decide (PushInterval c = 0)); reflexivity.
Qed.

Lemma defaults_idempotent (c : Config) : defaults (defaults c) = defaults c.
Proof. destruct (defaults_set c) as (? & ? & ?). by apply defaults_fixed. Qed.

(** The conflicts are read off fields that neither the defaults nor the
    client assignment write. *)
Lemma conflicts_defaults (cl : option http.Client) (c : Config) :
  (two_bearer_tokens (defaults c) <-> two_bearer_tokens c) /\
  (two_passwords (defaults c) <-> two_passwords c) /\
  (two_bearer_tokens (set_Client cl (defaults c)) <-> two_bearer_tokens c) /\
  (two_passwords (set_Client cl (defaults c)) <-> two_passwords c).
Proof.
  destruct (credentials_defaults c) as (_ & Hb & Ht & Hf & _).
  unfold two_bearer_tokens, two_passwords. simpl. rewrite Hb, Ht, Hf. tauto.
Qed.

(** The shapes of the result of [Validate]. *)
Lemma Validate_shape (url_Parse : string -> url.URL + url.Error) (c : Config) :
  fst (Validate url_Parse c) = c \/
  fst (Validate url_Parse c) = defaults c \/
  exists cl : http.Client,
    fst (Validate url_Parse c) = set_Client (Some cl) (defaults c).
Proof.
  destruct (decide (two_bearer_tokens c)) as [Hb|Hb].
  { left. by rewrite Validate_two_bearer_tokens. }
  destruct (decide (two_passwords c)) as [Hp|Hp].
  { left. by rewrite Validate_two_passwords. }
  right. rewrite Validate_no_conflict by done.
  destruct (Client c); [by left|].
  case_decide; [destruct (url_Parse (ProxyURL c))|]; simpl; eauto.
Qed.

(** [Validate] is idempotent: validating the configuration a call of
    [Validate] has left behind returns the same error and changes nothing
    more, on the success path and on every failure path. *)
Theorem Validate_idempotent
    (url_Parse : string -> url.URL + url.Error) (c : Config) :
  Validate url_Parse (fst (Validate url_Parse c)) = Validate url_Parse c.
Proof.
  destruct (decide (two_bearer_tokens c)) as [Hb|Hb].
  { rewrite (Validate_two_bearer_tokens url_Parse c) by done. simpl.
    by rewrite Validate_two_bearer_tokens. }
  destruct (decide (two_passwords c)) as [Hp|Hp].
  { rewrite (Validate_two_passwords url_Parse c) by done. simpl.
    by rewrite Validate_two_passwords. }
  destruct (credentials_defaults c) as (_ & _ & _ & _ & _ & Hproxy & _ & Hclient).
  assert (Hd : forall cl, ~ two_bearer_tokens (set_Client cl (defaults c)) /\
                          ~ two_passwords (set_Client cl (defaults c))).
  { intros cl. destruct (conflicts_defaults cl c) as (_ & _ & H1 & H2). tauto. }
  assert (Hd' : ~ two_bearer_tokens (defaults c) /\ ~ two_passwords (defaults c)).
  { destruct (conflicts_defaults None c) as (H1 & H2 & _). tauto. }
  rewrite (Validate_no_conflict url_Parse c) by done.
  destruct (Client c) as [cl|] eqn:Hc.
  - simpl. rewrite Validate_no_conflict by tauto.
    rewrite Hclient. by rewrite defaults_idempotent.
  - case_decide as Hne; [destruct (url_Parse (ProxyURL c)) as [u|err] eqn:Hparse|];
      simpl.
    + rewrite Validate_no_conflict by apply Hd. simpl.
      by rewrite defaults_set_Client, defaults_idempotent.
    + rewrite Validate_no_conflict by tauto.
      rewrite Hclient, Hproxy. rewrite decide_True by done.
      by rewrite Hparse, defaults_idempotent.
    + rewrite Validate_no_conflict by apply Hd. simpl.
      by rewrite defaults_set_Client, defaults_idempotent.
Qed.

(** [Validate] writes [Endpoint], [RemoteTimeout], [PushInterval] and
    [Client] only: the name, the credentials, the TLS settings, the proxy URL
    and the static headers are the same after the call, whatever it
    returns. *)
Theorem Validate_keeps_credentials
    (url_Parse : string -> url.URL + url.Error) (c : Config) :
  Name (fst (Validate url_Parse c)) = Name c /\
  BasicAuth (fst (Validate url_Parse c)) = BasicAuth c /\
  BearerToken (fst (Validate url_Parse c)) = BearerToken c /\
  BearerTokenFile (fst (Validate url_Parse c)) = BearerTokenFile c /\
  TLSConfig (fst (Validate url_Parse c)) = TLSConfig c /\
  ProxyURL (fst (Validate url_Parse c)) = ProxyURL c /\
  Headers (fst (Validate url_Parse c)) = Headers c.
Proof.
  destruct (credentials_defaults c) as (? & ? & ? & ? & ? & ? & ? & _).
  destruct (Validate_shape url_Parse c) as [-> | [-> | [cl ->]]];
    simpl; repeat split; done.
Qed.

(** [Validate] consults [url.Parse] on the proxy URL of the configuration
    and on nothing else: two parsers that agree on that one string give the
    same configuration and the same error. *)
Theorem Validate_parser_at_ProxyURL
    (parse1 parse2 : string -> url.URL + url.Error) (c : Config) :
  parse1 (ProxyURL c) = parse2 (ProxyURL c) ->
  Validate parse1 c = Validate parse2 c.
Proof.
  intros H.
  destruct (decide (two_bearer_tokens c)) as [Hb|Hb].
  { by rewrite !Validate_two_bearer_tokens. }
  destruct (decide (two_passwords c)) as [Hp|Hp].
  { by rewrite !Validate_two_passwords. }
  rewrite !Validate_no_conflict by done. by rewrite H.
Qed.

Lemma Validate_parser_at_ProxyURL_witness :
  Validate example_Parse (with_credentials None "" "" example_proxy)
  = Validate example_Parse_paths (with_credentials None "" "" example_proxy).
Proof. apply Validate_parser_at_ProxyURL. reflexivity. Defined.

(** A preset client is never replaced, and with a preset client the proxy
    URL is not parsed at all: the outcome of [Validate] is the same under
    every parser, also for a proxy URL that does not parse. *)
Theorem Validate_preset_client
    (parse1 parse2 : string -> url.URL + url.Error) (c : Config)
    (cl : http.Client) :
  Client c = Some cl ->
  Client (fst (Validate parse1 c)) = Some cl /\
  Validate parse2 c = Validate parse1 c.
Proof.
  intros Hc.
  destruct (credentials_defaults c) as (_ & _ & _ & _ & _ & _ & _ & Hclient).
  destruct (decide (two_bearer_tokens c)) as [Hb|Hb].
  { by rewrite !Validate_two_bearer_tokens. }
  destruct (decide (two_passwords c)) as [Hp|Hp].
  { by rewrite !Validate_two_passwords. }
  rewrite !Validate_no_conflict by done. rewrite Hc. simpl.
  split; [congruence | reflexivity].
Qed.

Lemma Validate_preset_client_witness :
  let c := set_Client (Some http.DefaultClient) example_bad_proxy in
  Client (fst (Validate example_Parse c)) = Some http.DefaultClient /\
  Validate example_Parse_paths c = Validate example_Parse c.
Proof.
  apply (Validate_preset_client example_Parse example_Parse_paths
           (set_Client (Some http.DefaultClient) example_bad_proxy)).
  reflexivity.
Defined.

(** [Validate] succeeds exactly when neither conflict is present and either
    a client is preset, or no proxy URL is given, or the proxy URL parses. *)
Theorem Validate_succeeds_iff
    (url_Parse : string -> url.URL + url.Error) (c : Config) :
  snd (Validate url_Parse c) = None <->
  ~ two_bearer_tokens c /\ ~ two_passwords c /\
  (is_Some (Client c) \/ ProxyURL c = "" \/
   exists parsedProxyURL, url_Parse (ProxyURL c) = inl parsedProxyURL).
Proof.
  destruct (decide (two_bearer_tokens c)) as [Hb|Hb].
  { rewrite Validate_two_bearer_tokens by done. simpl.
    split; [discriminate | tauto]. }
  destruct (decide (two_passwords c)) as [Hp|Hp].
  { rewrite Validate_two_passwords by done. simpl.
    split; [discriminate | tauto]. }
  rewrite Validate_no_conflict by done.
  destruct (Client c) as [cl|].
  { simpl. split; [intros _; repeat split; eauto | done]. }
  case_decide as Hne.
  - destruct (url_Parse (ProxyURL c)) as [u|err]; simpl.
    + split; [intros _; repeat split; eauto | done].
    + split; [discriminate|].
      intros (_ & _ & [[cl Hcl] | [H | [u Hu]]]); done.
  - simpl. split; [intros _|done].
    repeat split; try done. right. left.
    by destruct (decide (ProxyURL c = "")).
Qed.

Lemma Validate_succeeds_iff_witness :
  snd (Validate example_Parse (with_credentials basic_empty "" "" example_proxy))
  = None /\
  ~ (~ two_bearer_tokens example_bad_proxy /\
     ~ two_passwords example_bad_proxy /\
     (is_Some (Client example_bad_proxy) \/ ProxyURL example_bad_proxy = "" \/
      exists u, example_Parse (ProxyURL example_bad_proxy) = inl u)).
Proof.
  split.
  - apply (proj2 (Validate_succeeds_iff example_Parse _)).
    split; [intros [H _]; by apply H|].
    split; [intros [H _]; by apply H|].
    right. right. eexists. reflexivity.
  - intros H.
    apply (proj2 (Validate_succeeds_iff example_Parse example_bad_proxy)) in H.
    vm_compute in H. discriminate.
Defined.

(** The errors of [Validate] are the two conflict errors and the error of
    [url.Parse] on the proxy URL, each with its cause; no other error is
    returned: a basic-auth map without a username or a password, or a
    credential file that does not exist, is not an error of [Validate]. *)
Theorem Validate_errors
    (url_Parse : string -> url.URL + url.Error) (c : Config) (err : error) :
  snd (Validate url_Parse c) = Some err ->
  (err = ErrTwoBearerTokens /\ two_bearer_tokens c) \/
  (err = ErrTwoPasswords /\ two_passwords c /\ ~ two_bearer_tokens c) \/
  (exists e : url.Error,
     err = url_Error e /\ url_Parse (ProxyURL c) = inr e /\
     Client c = None /\ ProxyURL c <> "" /\
     ~ two_bearer_tokens c /\ ~ two_passwords c).
Proof.
  destruct (decide (two_bearer_tokens c)) as [Hb|Hb].
  { rewrite Validate_two_bearer_tokens by done. simpl.
    intros [= <-]. by left. }
  destruct (decide (two_passwords c)) as [Hp|Hp].
  { rewrite Validate_two_passwords by done. simpl.
    intros [= <-]. right. by left. }
  rewrite Validate_no_conflict by done.
  destruct (Client c) as [cl|]; [discriminate|].
  case_decide as Hne; [|discriminate].
  destruct (url_Parse (ProxyURL c)) as [u|e] eqn:Hparse; [discriminate|].
  simpl. intros [= <-]. right. right. exists e. repeat split; done.
Qed.

Lemma Validate_errors_witness :
  exists e : url.Error,
    snd (Validate example_Parse example_bad_proxy) = Some (url_Error e) /\
    example_Parse "123.4.5.6" = inr e.
Proof.
  destruct (Validate_errors example_Parse example_bad_proxy _ eq_refl)
    as [[H _] | [[H _] | (e & H & Hparse & _)]]; try discriminate H.
  exists e. split; [by rewrite <- H | exact Hparse].
Defined.

(** What holds of the configuration on the success path. *)
Lemma Validate_success_complete
    (url_Parse : string -> url.URL + url.Error) (c c' : Config) :
  Validate url_Parse c = (c', None) ->
  Endpoint c' <> "" /\ RemoteTimeout c' <> 0 /\ PushInterval c' <> 0 /\
  is_Some (Client c') /\ ~ two_bearer_tokens c' /\ ~ two_passwords c'.
Proof.
  intros H.
  pose proof (Validate_success url_Parse c c' H)
    as (Hb & Hp & He & Hr & Hi & _ & Hba & Hbt & Hbf & _).
  destruct (defaults_set c) as (? & ? & ?).
  rewrite He, Hr, Hi. repeat split; try done.
  - rewrite Validate_no_conflict in H by done.
    destruct (Client c) as [cl|] eqn:Hc.
    + injection H as <-.
      destruct (credentials_defaults c) as (_ & _ & _ & _ & _ & _ & _ & ->).
      by rewrite Hc.
    + case_decide; [destruct (url_Parse (ProxyURL c))|];
        try discriminate; injection H as <-; simpl; eauto.
  - unfold two_bearer_tokens. by rewrite Hbt, Hbf.
  - unfold two_passwords. by rewrite Hba.
Qed.

(** A configuration on which [Validate] has succeeded is complete and free
    of conflicts: the endpoint is not empty, the remote timeout and the push
    interval are not zero, a client is set, and neither credential is given
    twice. *)
Theorem Validate_validated
    (url_Parse : string -> url.URL + url.Error) (c c' : Config) :
  Validate url_Parse c = (c', None) ->
  Endpoint c' <> "" /\ RemoteTimeout c' <> 0 /\ PushInterval c' <> 0 /\
  is_Some (Client c') /\ ~ two_bearer_tokens c' /\ ~ two_passwords c'.
Proof. apply Validate_success_complete. Qed.

Lemma Validate_validated_witness :
  let c' := fst (Validate example_Parse Config_zero) in
  Endpoint c' <> "" /\ RemoteTimeout c' <> 0 /\ PushInterval c' <> 0 /\
  is_Some (Client c') /\ ~ two_bearer_tokens c' /\ ~ two_passwords c'.
Proof. apply (Validate_validated example_Parse Config_zero). reflexivity. Defined.

(** Validating a validated configuration again succeeds and changes
    nothing, under every parser: the client of the first call is kept and
    the proxy URL is not parsed a second time. *)
Theorem Validate_revalidate
    (parse1 parse2 : string -> url.URL + url.Error) (c c' : Config) :
  Validate parse1 c = (c', None) -> Validate parse2 c' = (c', None).
Proof.
  intros H.
  destruct (Validate_success_complete parse1 c c' H)
    as (He & Hr & Hi & [cl Hcl] & Hb & Hp).
  rewrite Validate_no_conflict by done. rewrite Hcl.
  by rewrite defaults_fixed.
Qed.

Lemma Validate_revalidate_witness :
  let c' := fst (Validate example_Parse_paths example_bad_proxy) in
  Validate example_Parse c' = (c', None).
Proof.
  apply (Validate_revalidate example_Parse_paths example_Parse
           example_bad_proxy).
  reflexivity.
Defined.

(** A failure of [Validate] on the proxy URL is not atomic. When the
    conflict checks pass, no client is preset and the proxy URL does not
    parse, [Validate] returns the error of [url.Parse] and leaves the client
    nil, but the three defaults have already been written: an unset field
    holds its default and a set field its value. *)
Theorem Validate_proxy_parse_error
    (url_Parse : string -> url.URL + url.Error) (c : Config) (e : url.Error) :
  ~ two_bearer_tokens c -> ~ two_passwords c ->
  Client c = None -> ProxyURL c <> "" -> url_Parse (ProxyURL c) = inr e ->
  snd (Validate url_Parse c) = Some (url_Error e) /\
  Client (fst (Validate url_Parse c)) = None /\
  Endpoint (fst (Validate url_Parse c))
  = (if decide (Endpoint c = "") then "/api/prom/push" else Endpoint c) /\
  RemoteTimeout (fst (Validate url_Parse c))
  = (if decide (RemoteTimeout c = 0) then 30 * time.Second
     else RemoteTimeout c) /\
  PushInterval (fst (Validate url_Parse c))
  = (if decide (PushInterval c = 0) then 10 * time.Second
     else PushInterval c).
Proof.
  intros Hb Hp Hc Hne Hparse.
  rewrite Validate_no_conflict by done.
  rewrite Hc, decide_True, Hparse by done. simpl.
  destruct (credentials_defaults c) as (_ & _ & _ & _ & _ & _ & _ & ->).
  rewrite Endpoint_defaults, RemoteTimeout_defaults, PushInterval_defaults.
  repeat split; done.
Qed.

Lemma Validate_proxy_parse_error_witness :
  exists e : url.Error,
    snd (Validate example_Parse example_bad_proxy) = Some (url_Error e) /\
    Client (fst (Validate example_Parse example_bad_proxy)) = None /\
    Endpoint (fst (Validate example_Parse example_bad_proxy))
    = "/api/prom/push" /\
    fst (Validate example_Parse example_bad_proxy) <> example_bad_proxy.
Proof.
  destruct (example_Parse (ProxyURL example_bad_proxy)) as [u|e] eqn:Hparse;
    [discriminate Hparse|].
  exists e.
  destruct (Validate_proxy_parse_error example_Parse example_bad_proxy e)
    as (Herr & Hclient & Hendpoint & _).
  - intros [H _]. by apply H.
  - intros [H _]. by apply H.
  - reflexivity.
  - discriminate.
  - exact Hparse.
  - split; [exact Herr|]. split; [exact Hclient|].
    split; [exact Hendpoint|].
    intros H. rewrite H in Hendpoint. discriminate Hendpoint.
Defined.

Lemma index_nonempty (m : gomap) (k : string) :
  index m k <> "" <->
  exists (entries : gmap string string) (v : string),
    m = Some entries /\ entries !! k = Some v /\ v <> "".
Proof.
  unfold index. split.
  - destruct m as [entries|]; [|done].
    destruct (entries !! k) as [v|] eqn:Hk; [|done].
    simpl. intros Hv. by exists entries, v.
  - intros (entries & v & -> & Hk & Hv). by rewrite Hk.
Qed.

(** [Validate] returns [ErrTwoPasswords] exactly when the bearer-token forms
    are not both set and the [BasicAuth] map holds a non-empty value under
    "password" and a non-empty value under "password_file": a nil map, a
    missing key and an empty value all count as not set, and the other keys
    of the map play no part. *)
Theorem Validate_two_passwords_iff
    (url_Parse : string -> url.URL + url.Error) (c : Config) :
  snd (Validate url_Parse c) = Some ErrTwoPasswords <->
  ~ two_bearer_tokens c /\
  exists (basicAuth : gmap string string) (password passwordFile : string),
    BasicAuth c = Some basicAuth /\
    basicAuth !! "password" = Some password /\ password <> "" /\
    basicAuth !! "password_file" = Some passwordFile /\ passwordFile <> "".
Proof.
  split.
  - intros H.
    destruct (decide (two_bearer_tokens c)) as [Hb|Hb].
    { rewrite Validate_two_bearer_tokens in H by done. discriminate H. }
    destruct (decide (two_passwords c)) as [[Hp Hf]|Hp].
    2:{ rewrite Validate_no_conflict in H by done.
        destruct (Client c);
          [|case_decide; [destruct (url_Parse (ProxyURL c))|]];
          discriminate H. }
    split; [exact Hb|].
    apply index_nonempty in Hp as (m & pw & Hm & Hpw & Hne).
    apply index_nonempty in Hf as (m' & f & Hm' & Hf & Hne').
    rewrite Hm in Hm'. injection Hm' as <-.
    by exists m, pw, f.
  - intros (Hb & m & pw & f & Hm & Hpw & Hne & Hf & Hne').
    rewrite Validate_two_passwords; [done | done |].
    split; apply index_nonempty; eauto.
Qed.

Lemma Validate_two_passwords_iff_witness :
  snd (Validate example_Parse (with_credentials both_passwords "" "" ""))
  = Some ErrTwoPasswords /\
  snd (Validate example_Parse (with_credentials basic_password_file "" "" ""))
  <> Some ErrTwoPasswords.
Proof.
  split.
  - apply (proj2 (Validate_two_passwords_iff example_Parse _)).
    split; [intros [H _]; by apply H|].
    eexists _, "TestPassword", "passwordFile".
    split; [reflexivity|]. repeat split; discriminate.
  - intros H.
    apply (proj1 (Validate_two_passwords_iff example_Parse _)) in H
      as (_ & m & pw & f & Hm & Hpw & _).
    injection Hm as <-. discriminate Hpw.
Defined.

(** [Validate] never overwrites a value that is set, on the success path and
    on every failure path: a non-empty endpoint, a non-zero remote timeout
    and a non-zero push interval (a negative one too) are the same after the
    call. *)
Theorem Validate_keeps_set_fields
    (url_Parse : string -> url.URL + url.Error) (c : Config) :
  (Endpoint c <> "" -> Endpoint (fst (Validate url_Parse c)) = Endpoint c) /\
  (RemoteTimeout c <> 0 ->
   RemoteTimeout (fst (Validate url_Parse c)) = RemoteTimeout c) /\
  (PushInterval c <> 0 ->
   PushInterval (fst (Validate url_Parse c)) = PushInterval c).
Proof.
  pose proof (Endpoint_defaults c) as He.
  pose proof (RemoteTimeout_defaults c) as Hr.
  pose proof (PushInterval_defaults c) as Hi.
  destruct (Validate_shape url_Parse c) as [-> | [-> | [cl ->]]];
    simpl; repeat split; intros H; try done.
  all: first [ by rewrite He, decide_False
             | by rewrite Hr, decide_False
             | by rewrite Hi, decide_False ].
Qed.

Lemma Validate_keeps_set_fields_witness :
  let c := set_RemoteTimeout (-1) (set_PushInterval (-5) example_bad_proxy) in
  RemoteTimeout (fst (Validate example_Parse c)) = -1 /\
  PushInterval (fst (Validate example_Parse c)) = -5.
Proof.
  pose proof (Validate_keeps_set_fields example_Parse
                (set_RemoteTimeout (-1)
                   (set_PushInterval (-5) example_bad_proxy)))
    as (_ & Hr & Hi).
  split; [apply Hr | apply Hi]; discriminate.
Defined.
